(** * Sprite geometry of pixi.js: vertices, bounds, hit test and sizing

    A shallow embedding of [src/core/sprites/Sprite.js].

    Numbers.  A JavaScript number is modelled as an exact rational in
    canonical form ([Qc]): equality is Leibniz equality, [ring] and [field]
    apply, every comparison is decidable and every definition computes.
    Rounding of the arithmetic and of the stores into the [Float32Array]
    is outside the model, as are NaN and the infinities; a division by
    zero, which JavaScript answers with one of those, is 0 in [Qc], and the
    theorems that read a quotient either assume a positive frame or compare
    two quotients with the same divisor.

    Objects.  Each JavaScript object the sprite reads is a record with the
    fields of the source ([Point], [Rectangle], [Matrix], [Texture]); the
    sprite itself is the record [Sprite.t] and every method is a function
    from the state before the call to the state after it (and the value
    returned, if any).  The vertex buffer [vertexData] is a list updated
    by index; a store outside the buffer is ignored, as a typed array
    does. *)

From Stdlib Require Import QArith Qcanon Lqa.
From stdpp Require Import base decidable numbers list.

Local Open Scope Qc_scope.

(** ** Numbers of the source *)

Definition num (n : Z) : Qc := Qc_of_Z n.

(** [if (v)] on a number: zero is the only falsy rational. *)
Definition truthy (v : Qc) : bool := bool_decide (v ≠ 0).

(** [l || r] on numbers. *)
Definition js_or (l r : Qc) : Qc := if truthy l then l else r.

(** [l < r] and [l > r] as the booleans the source branches on. *)
Definition ltb (l r : Qc) : bool := bool_decide (l < r).
Definition gtb (l r : Qc) : bool := bool_decide (r < l).

(** [l === r] on numbers. *)
Definition eqb (l r : Qc) : bool := bool_decide (l = r).


(** Modelled from the spec: [utils.sign] is required from [../utils], which
    is not among the sources.  The spec calls it the sign of the scale and
    gives it a value that is falsy exactly at zero ("sign(scaleX) or 1 if
    scaleX == 0"): -1 below zero, 0 at zero, 1 above. *)
Definition sign (n : Qc) : Qc :=
  if truthy n then (if ltb n 0 then - 1 else 1) else 0.

(** ** Objects of the source *)

Module Point.
Record t : Type := mk { x : Qc; y : Qc }.
End Point.

Module Rectangle.
Record t : Type := mk { x : Qc; y : Qc; width : Qc; height : Qc }.
End Rectangle.

Module Matrix.
Record t : Type := mk { a : Qc; b : Qc; c : Qc; d : Qc; tx : Qc; ty : Qc }.

Definition IDENTITY : t := mk 1 0 0 1 0 0.

(** Modelled from the spec: [Matrix.applyInverse] belongs to [../math],
    which is not among the sources.  The spec asks for "the inverse of
    the world transform" applied to a point: the affine map that undoes
    x' = a x + c y + tx, y' = b x + d y + ty. *)
Definition applyInverse (m : t) (pos : Point.t) : Point.t :=
  let id := 1 / (a m * d m + c m * - b m) in
  let x := Point.x pos in
  let y := Point.y pos in
  Point.mk (d m * id * x + - c m * id * y + (ty m * c m - tx m * d m) * id)
           (a m * id * y + - b m * id * x + (- ty m * a m + tx m * b m) * id).
End Matrix.

Module Texture.
(** [orig] is the logical frame, [trim] the optional trim rectangle
    ([null] is [None]). *)
Record t : Type := mk {
  orig : Rectangle.t;
  trim : option Rectangle.t
}.

Definition with_trim (tex : t) (r : option Rectangle.t) : t :=
  mk (orig tex) r.
End Texture.

Module Sprite.
(** The fields of a sprite that the geometry reads or writes.
    [worldTransform] is [this.transform.worldTransform] (which
    [this.worldTransform] returns too), [scale] is [this.scale],
    [children_length] is [this.children.length].  [_bounds] is the one
    rectangle object owned by the sprite; [_currentBounds] is either
    unset ([false]) or a reference to that same object ([true]). *)
Record t : Type := mk {
  anchor : Point.t;
  _texture : Texture.t;
  _width : Qc;
  _height : Qc;
  scale : Point.t;
  worldTransform : Matrix.t;
  vertexData : list Qc;
  textureDirty : bool;
  vertexDirty : bool;
  _bounds : Rectangle.t;
  _currentBounds : bool;
  children_length : nat
}.

Definition with_vertexData (s : t) (v : list Qc) : t :=
  mk (anchor s) (_texture s) (_width s) (_height s) (scale s)
     (worldTransform s) v (textureDirty s) (vertexDirty s)
     (_bounds s) (_currentBounds s) (children_length s).

Definition with_scale (s : t) (p : Point.t) : t :=
  mk (anchor s) (_texture s) (_width s) (_height s) p
     (worldTransform s) (vertexData s) (textureDirty s) (vertexDirty s)
     (_bounds s) (_currentBounds s) (children_length s).

Definition with__width (s : t) (v : Qc) : t :=
  mk (anchor s) (_texture s) v (_height s) (scale s)
     (worldTransform s) (vertexData s) (textureDirty s) (vertexDirty s)
     (_bounds s) (_currentBounds s) (children_length s).

Definition with__height (s : t) (v : Qc) : t :=
  mk (anchor s) (_texture s) (_width s) v (scale s)
     (worldTransform s) (vertexData s) (textureDirty s) (vertexDirty s)
     (_bounds s) (_currentBounds s) (children_length s).

Definition with_textureDirty (s : t) (f : bool) : t :=
  mk (anchor s) (_texture s) (_width s) (_height s) (scale s)
     (worldTransform s) (vertexData s) f (vertexDirty s)
     (_bounds s) (_currentBounds s) (children_length s).

Definition with_vertexDirty (s : t) (f : bool) : t :=
  mk (anchor s) (_texture s) (_width s) (_height s) (scale s)
     (worldTransform s) (vertexData s) (textureDirty s) f
     (_bounds s) (_currentBounds s) (children_length s).

Definition with__bounds (s : t) (r : Rectangle.t) : t :=
  mk (anchor s) (_texture s) (_width s) (_height s) (scale s)
     (worldTransform s) (vertexData s) (textureDirty s) (vertexDirty s)
     r (_currentBounds s) (children_length s).

Definition with__currentBounds (s : t) (f : bool) : t :=
  mk (anchor s) (_texture s) (_width s) (_height s) (scale s)
     (worldTransform s) (vertexData s) (textureDirty s) (vertexDirty s)
     (_bounds s) f (children_length s).

Definition with__texture (s : t) (tex : Texture.t) : t :=
  mk (anchor s) tex (_width s) (_height s) (scale s)
     (worldTransform s) (vertexData s) (textureDirty s) (vertexDirty s)
     (_bounds s) (_currentBounds s) (children_length s).

Definition with_worldTransform (s : t) (m : Matrix.t) : t :=
  mk (anchor s) (_texture s) (_width s) (_height s) (scale s)
     m (vertexData s) (textureDirty s) (vertexDirty s)
     (_bounds s) (_currentBounds s) (children_length s).
End Sprite.

Import Sprite.

(** [vertexData = new Float32Array(16)]: sixteen slots, all zero. *)
Definition new_vertexData : list Qc := replicate 16 0.

(** [vertexData[i]] read as a number; every index of the source lies within
    the sixteen slots. *)
Definition slot (vertexData : list Qc) (i : nat) : Qc := default 0 (vertexData !! i).

(** ** [Sprite.prototype.calculateVertices] *)

Definition calculateVertices (s : Sprite.t) : Sprite.t :=
  let texture := _texture s in
  let wt := worldTransform s in
  let a := Matrix.a wt in
  let b := Matrix.b wt in
  let c := Matrix.c wt in
  let d := Matrix.d wt in
  let tx := Matrix.tx wt in
  let ty := Matrix.ty wt in
  let vertexData := vertexData s in
  let trim := Texture.trim texture in
  let orig := Texture.orig texture in
  let '(w0, w1, h0, h1) :=
    match trim with
    | Some trim =>
        let w1 := Rectangle.x trim - Point.x (anchor s) * Rectangle.width orig in
        let w0 := w1 + Rectangle.width trim in
        let h1 := Rectangle.y trim - Point.y (anchor s) * Rectangle.height orig in
        let h0 := h1 + Rectangle.height trim in
        (w0, w1, h0, h1)
    | None =>
        let w0 := Rectangle.width orig * (1 - Point.x (anchor s)) in
        let w1 := Rectangle.width orig * - Point.x (anchor s) in
        let h0 := Rectangle.height orig * (1 - Point.y (anchor s)) in
        let h1 := Rectangle.height orig * - Point.y (anchor s) in
        (w0, w1, h0, h1)
    end in
  let vertexData := <[0%nat := a * w1 + c * h1 + tx]> vertexData in
  let vertexData := <[1%nat := d * h1 + b * w1 + ty]> vertexData in
  let vertexData := <[2%nat := a * w0 + c * h1 + tx]> vertexData in
  let vertexData := <[3%nat := d * h1 + b * w0 + ty]> vertexData in
  let vertexData := <[4%nat := a * w0 + c * h0 + tx]> vertexData in
  let vertexData := <[5%nat := d * h0 + b * w0 + ty]> vertexData in
  let vertexData := <[6%nat := a * w1 + c * h0 + tx]> vertexData in
  let vertexData := <[7%nat := d * h0 + b * w1 + ty]> vertexData in
  with_vertexData s vertexData.

(** ** [Sprite.prototype.calculateBoundsVertices] *)

Definition calculateBoundsVertices (s : Sprite.t) : Sprite.t :=
  let texture := _texture s in
  let trim := Texture.trim texture in
  let vertexData := vertexData s in
  let orig := Texture.orig texture in
  if match trim with
     | None => true
     | Some trim =>
         eqb (Rectangle.width trim) (Rectangle.width orig)
         && eqb (Rectangle.height trim) (Rectangle.height orig)
     end
  then
    let vertexData := <[8%nat := slot vertexData 0]> vertexData in
    let vertexData := <[9%nat := slot vertexData 1]> vertexData in
    let vertexData := <[10%nat := slot vertexData 2]> vertexData in
    let vertexData := <[11%nat := slot vertexData 3]> vertexData in
    let vertexData := <[12%nat := slot vertexData 4]> vertexData in
    let vertexData := <[13%nat := slot vertexData 5]> vertexData in
    let vertexData := <[14%nat := slot vertexData 6]> vertexData in
    let vertexData := <[15%nat := slot vertexData 7]> vertexData in
    with_vertexData s vertexData
  else
    let wt := worldTransform s in
    let a := Matrix.a wt in
    let b := Matrix.b wt in
    let c := Matrix.c wt in
    let d := Matrix.d wt in
    let tx := Matrix.tx wt in
    let ty := Matrix.ty wt in
    let w0 := Rectangle.width orig * (1 - Point.x (anchor s)) in
    let w1 := Rectangle.width orig * - Point.x (anchor s) in
    let h0 := Rectangle.height orig * (1 - Point.y (anchor s)) in
    let h1 := Rectangle.height orig * - Point.y (anchor s) in
    let vertexData := <[8%nat := a * w1 + c * h1 + tx]> vertexData in
    let vertexData := <[9%nat := d * h1 + b * w1 + ty]> vertexData in
    let vertexData := <[10%nat := a * w0 + c * h1 + tx]> vertexData in
    let vertexData := <[11%nat := d * h1 + b * w0 + ty]> vertexData in
    let vertexData := <[12%nat := a * w0 + c * h0 + tx]> vertexData in
    let vertexData := <[13%nat := d * h0 + b * w0 + ty]> vertexData in
    let vertexData := <[14%nat := a * w1 + c * h0 + tx]> vertexData in
    let vertexData := <[15%nat := d * h0 + b * w1 + ty]> vertexData in
    with_vertexData s vertexData.

(** ** [Sprite.prototype.getBounds]

    [containerGetBounds] is the rectangle that the call
    [this.containerGetBounds()] of the scene graph returns; it is consulted
    only when the sprite has children.  The method returns the object that
    [_currentBounds] refers to, which is [_bounds]. *)

Definition getBounds (containerGetBounds : Rectangle.t) (s : Sprite.t)
  : Rectangle.t * Sprite.t :=
  if negb (_currentBounds s) then
    let s := with_vertexDirty s false in
    let s := calculateBoundsVertices s in
    let vertexData := vertexData s in
    let x1 := slot vertexData 8 in
    let y1 := slot vertexData 9 in
    let x2 := slot vertexData 10 in
    let y2 := slot vertexData 11 in
    let x3 := slot vertexData 12 in
    let y3 := slot vertexData 13 in
    let x4 := slot vertexData 14 in
    let y4 := slot vertexData 15 in
    let minX := x1 in
    let minX := if ltb x2 minX then x2 else minX in
    let minX := if ltb x3 minX then x3 else minX in
    let minX := if ltb x4 minX then x4 else minX in
    let minY := y1 in
    let minY := if ltb y2 minY then y2 else minY in
    let minY := if ltb y3 minY then y3 else minY in
    let minY := if ltb y4 minY then y4 else minY in
    let maxX := x1 in
    let maxX := if gtb x2 maxX then x2 else maxX in
    let maxX := if gtb x3 maxX then x3 else maxX in
    let maxX := if gtb x4 maxX then x4 else maxX in
    let maxY := y1 in
    let maxY := if gtb y2 maxY then y2 else maxY in
    let maxY := if gtb y3 maxY then y3 else maxY in
    let maxY := if gtb y4 maxY then y4 else maxY in
    let '(minX, minY, maxX, maxY) :=
      if negb (Nat.eqb (children_length s) 0) then
        let childBounds := containerGetBounds in
        let w0 := Rectangle.x childBounds in
        let w1 := Rectangle.x childBounds + Rectangle.width childBounds in
        let h0 := Rectangle.y childBounds in
        let h1 := Rectangle.y childBounds + Rectangle.height childBounds in
        let minX := if ltb minX w0 then minX else w0 in
        let minY := if ltb minY h0 then minY else h0 in
        let maxX := if gtb maxX w1 then maxX else w1 in
        let maxY := if gtb maxY h1 then maxY else h1 in
        (minX, minY, maxX, maxY)
      else (minX, minY, maxX, maxY) in
    let bounds := Rectangle.mk minX minY (maxX - minX) (maxY - minY) in
    let s := with__bounds s bounds in
    let s := with__currentBounds s true in
    (_bounds s, s)
  else (_bounds s, s).

(** ** [Sprite.prototype.getLocalBounds] *)

Definition getLocalBounds (s : Sprite.t) : Rectangle.t * Sprite.t :=
  let orig := Texture.orig (_texture s) in
  let s := with__bounds s
    (Rectangle.mk ((- Rectangle.width orig) * Point.x (anchor s))
                  ((- Rectangle.height orig) * Point.y (anchor s))
                  (Rectangle.width orig)
                  (Rectangle.height orig)) in
  (_bounds s, s).

(** ** [Sprite.prototype.containsPoint]

    [applyInverse] is the capability of the transform that maps a world
    point to local space; the source stores its result in the scratch
    point [tempPoint] before reading it. *)

Definition containsPoint (applyInverse : Matrix.t -> Point.t -> Point.t)
    (s : Sprite.t) (point : Point.t) : bool :=
  let tempPoint := applyInverse (worldTransform s) point in
  let width := Rectangle.width (Texture.orig (_texture s)) in
  let height := Rectangle.height (Texture.orig (_texture s)) in
  let x1 := (- width) * Point.x (anchor s) in
  if gtb (Point.x tempPoint) x1 && ltb (Point.x tempPoint) (x1 + width) then
    let y1 := (- height) * Point.y (anchor s) in
    if gtb (Point.y tempPoint) y1 && ltb (Point.y tempPoint) (y1 + height)
    then true
    else false
  else false.

(** ** The [width] and [height] accessors *)


Definition set_width (s : Sprite.t) (value : Qc) : Sprite.t :=
  let sign := js_or (sign (Point.x (scale s))) 1 in
  let s := with_scale s
    (Point.mk (sign * value / Rectangle.width (Texture.orig (_texture s)))
              (Point.y (scale s))) in
  with__width s value.


Definition set_height (s : Sprite.t) (value : Qc) : Sprite.t :=
  let sign := js_or (sign (Point.y (scale s))) 1 in
  let s := with_scale s
    (Point.mk (Point.x (scale s))
              (sign * value / Rectangle.height (Texture.orig (_texture s)))) in
  with__height s value.

(** ** [Sprite.prototype._onTextureUpdate] *)

Definition _onTextureUpdate (s : Sprite.t) : Sprite.t :=
  let s := with_textureDirty s true in
  let s :=
    if truthy (_width s) then
      with_scale s
        (Point.mk (sign (Point.x (scale s)) * _width s
                   / Rectangle.width (Texture.orig (_texture s)))
                  (Point.y (scale s)))
    else s in
  let s :=
    if truthy (_height s) then
      with_scale s
        (Point.mk (Point.x (scale s))
                  (sign (Point.y (scale s)) * _height s
                   / Rectangle.height (Texture.orig (_texture s))))
    else s in
  s.

(** ** [Sprite.prototype._renderWebGL] and [Sprite.prototype._renderCanvas]

    The renderer belongs to the rendering backends; what it is asked to do
    is recorded as the list of the calls made on it, each render call with
    the sprite as it is handed over. *)

Inductive RendererCall : Type :=
  | setObjectRenderer_sprite
  | plugins_sprite_render (s : Sprite.t).

(** [updated] is [this.transform.updated], the flag of the scene graph that
    the transform changed. *)
Definition _renderWebGL (updated : bool) (s : Sprite.t)
  : Sprite.t * list RendererCall :=
  let s :=
    if updated || textureDirty s then
      let s := with_textureDirty s false in
      calculateVertices s
    else s in
  (s, [setObjectRenderer_sprite; plugins_sprite_render s]).

Definition _renderCanvas (s : Sprite.t) : Sprite.t * list RendererCall :=
  (s, [plugins_sprite_render s]).

(** ** Decidable equality of the objects *)

#[global] Instance Point_eq_dec : EqDecision Point.t.
Proof. solve_decision. Defined.
#[global] Instance Rectangle_eq_dec : EqDecision Rectangle.t.
Proof. solve_decision. Defined.
#[global] Instance Matrix_eq_dec : EqDecision Matrix.t.
Proof. solve_decision. Defined.
#[global] Instance Texture_eq_dec : EqDecision Texture.t.
Proof. solve_decision. Defined.
#[global] Instance Sprite_eq_dec : EqDecision Sprite.t.
Proof. solve_decision. Defined.

(** ** The quad of the spec

    The affine map "x' = a wx + c hy + tx, y' = d hy + b wx + ty" and the
    corner order "(w1,h1), (w0,h1), (w0,h0), (w1,h0)", as the spec words
    them; the theorems compare the buffer the code fills with this list. *)

Definition world_x (m : Matrix.t) (wx hy : Qc) : Qc :=
  Matrix.a m * wx + Matrix.c m * hy + Matrix.tx m.

Definition world_y (m : Matrix.t) (wx hy : Qc) : Qc :=
  Matrix.d m * hy + Matrix.b m * wx + Matrix.ty m.

Definition quad (m : Matrix.t) (w0 w1 h0 h1 : Qc) : list Qc :=
  [ world_x m w1 h1; world_y m w1 h1;
    world_x m w0 h1; world_y m w0 h1;
    world_x m w0 h0; world_y m w0 h0;
    world_x m w1 h0; world_y m w1 h0 ].

(** A sprite as the constructor leaves its buffer: sixteen slots. *)
Definition buffer_ok (s : Sprite.t) : Prop := length (vertexData s) = 16%nat.

(** The test of [calculateBoundsVertices], as a proposition. *)
Definition untrimmed (s : Sprite.t) : Prop :=
  match Texture.trim (_texture s) with
  | None => True
  | Some trim =>
      Rectangle.width trim = Rectangle.width (Texture.orig (_texture s))
      /\ Rectangle.height trim = Rectangle.height (Texture.orig (_texture s))
  end.

#[global] Instance untrimmed_dec (s : Sprite.t) : Decision (untrimmed s).
Proof. unfold untrimmed. destruct (Texture.trim (_texture s)); apply _. Defined.

(** [m] is the least (greatest) of the numbers of [l]. *)
Definition least (m : Qc) (l : list Qc) : Prop :=
  m ∈ l /\ Forall (fun v => m ≤ v) l.

Definition greatest (m : Qc) (l : list Qc) : Prop :=
  m ∈ l /\ Forall (fun v => v ≤ m) l.

(** ** Sample sprites *)

(** The 10 x 10 logical frame of the examples of the spec. *)
Definition frame10 : Rectangle.t := Rectangle.mk 0 0 (num 10) (num 10).

(** A sprite fresh from the constructor: scale 1, no width or height
    written, a zeroed sixteen-slot buffer, no memoized bounds. *)
Definition sprite_of (anchor : Point.t) (tex : Texture.t) (wt : Matrix.t)
    (children : nat) : Sprite.t :=
  Sprite.mk anchor tex 0 0 (Point.mk 1 1) wt new_vertexData true false
    (Rectangle.mk 0 0 0 0) false children.

(** Untrimmed 10 x 10 frame, anchor at the centre, identity transform. *)
Definition centred : Sprite.t :=
  sprite_of (Point.mk (1 / 2) (1 / 2)) (Texture.mk frame10 None)
    Matrix.IDENTITY 0.

(** 10 x 10 frame trimmed to (2,3,4,5), anchor (0,0), identity transform. *)
Definition trimmed : Sprite.t :=
  sprite_of (Point.mk 0 0)
    (Texture.mk frame10 (Some (Rectangle.mk (num 2) (num 3) (num 4) (num 5))))
    Matrix.IDENTITY 0.

(** A trim as large as the 10 x 10 frame, under a scaling and translating
    transform. *)
Definition full_trim : Sprite.t :=
  sprite_of (Point.mk (1 / 2) 0)
    (Texture.mk frame10 (Some (Rectangle.mk 0 0 (num 10) (num 10))))
    (Matrix.mk (num 2) 0 0 (num 3) 1 1) 0.

(** An untrimmed 8 x 8 sprite with one child, after its render quad was
    computed. *)
Definition square8_with_child : Sprite.t :=
  calculateVertices
    (sprite_of (Point.mk 0 0)
       (Texture.mk (Rectangle.mk 0 0 (num 8) (num 8)) None)
       Matrix.IDENTITY 1).

(** Untrimmed 10 x 10 frame, anchor (0,0), identity transform. *)
Definition box10 : Sprite.t :=
  sprite_of (Point.mk 0 0) (Texture.mk frame10 None) Matrix.IDENTITY 0.

(** A sprite given by its scale, its logical frame [W] x [H] and the
    width [w] and height [h] last written. *)
Definition sized (scale : Point.t) (W H : Qc) (w h : Qc) : Sprite.t :=
  Sprite.mk (Point.mk 0 0) (Texture.mk (Rectangle.mk 0 0 W H) None) w h scale
    Matrix.IDENTITY new_vertexData true false (Rectangle.mk 0 0 0 0) false 0.

(** Scale 1 on a frame 100 wide. *)
Definition upright : Sprite.t :=
  sized (Point.mk 1 1) (num 100) (num 100) 0 0.

(** Scale -1 on a frame 100 wide and high. *)
Definition mirrored : Sprite.t :=
  sized (Point.mk (- 1) (- 1)) (num 100) (num 100) 0 0.

(** A sprite scaled by 2 on a texture 100 wide and high whose width and
    height were written as 0 (or never written). *)
Definition unsized : Sprite.t :=
  sized (Point.mk 2 2) (num 100) (num 100) 0 0.

(** A sprite whose scale is 0 and whose width and height were written
    as 50. *)
Definition collapsed : Sprite.t :=
  sized (Point.mk 0 0) (num 100) (num 100) (num 50) (num 50).

(** Width 200 and height 25 were written; the texture now in place is
    100 x 50 and the scale is (-1, 2). *)
Definition resized : Sprite.t :=
  sized (Point.mk (- 1) 2) (num 100) (num 50) (num 200) (num 25).



(** An untrimmed 10 x 4 frame, anchor at the centre, scaled by (2,3) and
    moved to (3,7). *)
Definition stretched : Sprite.t :=
  sprite_of (Point.mk (1 / 2) (1 / 2))
    (Texture.mk (Rectangle.mk 0 0 (num 10) (num 4)) None)
    (Matrix.mk 2 0 0 (num 3) (num 3) (num 7)) 0.


(** Width -200 and height -25 were written; the texture now in place is
    100 x 50 and the scale is (2, -1). *)
Definition inverted : Sprite.t :=
  sized (Point.mk 2 (- 1)) (num 100) (num 50) (num (-200)) (num (-25)).

(** * Properties *)

(** ** Stores into the buffer *)

Ltac sixteen_slots l H :=
  do 16 (destruct l as [|? l]; [discriminate H|]);
  destruct l; [|discriminate H].

Ltac each_slot tac := repeat (apply (f_equal2 cons); [tac|]); try reflexivity.

Lemma store_low (l : list Qc) (v0 v1 v2 v3 v4 v5 v6 v7 : Qc) :
  length l = 16%nat ->
  take 8 (<[7%nat:=v7]> (<[6%nat:=v6]> (<[5%nat:=v5]> (<[4%nat:=v4]>
    (<[3%nat:=v3]> (<[2%nat:=v2]> (<[1%nat:=v1]> (<[0%nat:=v0]> l))))))))
  = [v0; v1; v2; v3; v4; v5; v6; v7].
Proof. intros Hl. sixteen_slots l Hl. reflexivity. Qed.

Lemma store_low_frame (l : list Qc) (v0 v1 v2 v3 v4 v5 v6 v7 : Qc) :
  drop 8 (<[7%nat:=v7]> (<[6%nat:=v6]> (<[5%nat:=v5]> (<[4%nat:=v4]>
    (<[3%nat:=v3]> (<[2%nat:=v2]> (<[1%nat:=v1]> (<[0%nat:=v0]> l))))))))
  = drop 8 l.
Proof. do 8 (destruct l as [|? l]; [reflexivity|]). reflexivity. Qed.

Lemma store_low_twice (l : list Qc) (v0 v1 v2 v3 v4 v5 v6 v7 : Qc) :
  let store l :=
    <[7%nat:=v7]> (<[6%nat:=v6]> (<[5%nat:=v5]> (<[4%nat:=v4]>
      (<[3%nat:=v3]> (<[2%nat:=v2]> (<[1%nat:=v1]> (<[0%nat:=v0]> l))))))) in
  store (store l) = store l.
Proof. do 8 (destruct l as [|? l]; [reflexivity|]). reflexivity. Qed.

Lemma store_high (l : list Qc) (v0 v1 v2 v3 v4 v5 v6 v7 : Qc) :
  length l = 16%nat ->
  drop 8 (<[15%nat:=v7]> (<[14%nat:=v6]> (<[13%nat:=v5]> (<[12%nat:=v4]>
    (<[11%nat:=v3]> (<[10%nat:=v2]> (<[9%nat:=v1]> (<[8%nat:=v0]> l))))))))
  = [v0; v1; v2; v3; v4; v5; v6; v7].
Proof. intros Hl. sixteen_slots l Hl. reflexivity. Qed.

Lemma store_high_frame (l : list Qc) (v0 v1 v2 v3 v4 v5 v6 v7 : Qc) :
  take 8 (<[15%nat:=v7]> (<[14%nat:=v6]> (<[13%nat:=v5]> (<[12%nat:=v4]>
    (<[11%nat:=v3]> (<[10%nat:=v2]> (<[9%nat:=v1]> (<[8%nat:=v0]> l))))))))
  = take 8 l.
Proof. do 16 (destruct l as [|? l]; [reflexivity|]). reflexivity. Qed.

(** The copy branch of [calculateBoundsVertices]: each store reads the
    buffer that the stores before it have already changed. *)
Lemma copy_high (l : list Qc) :
  length l = 16%nat ->
  let l8 := <[8%nat := slot l 0]> l in
  let l9 := <[9%nat := slot l8 1]> l8 in
  let l10 := <[10%nat := slot l9 2]> l9 in
  let l11 := <[11%nat := slot l10 3]> l10 in
  let l12 := <[12%nat := slot l11 4]> l11 in
  let l13 := <[13%nat := slot l12 5]> l12 in
  let l14 := <[14%nat := slot l13 6]> l13 in
  let l15 := <[15%nat := slot l14 7]> l14 in
  drop 8 l15 = take 8 l /\ take 8 l15 = take 8 l.
Proof. intros Hl. sixteen_slots l Hl. split; reflexivity. Qed.

Lemma copy_high_frame (l : list Qc) :
  let l8 := <[8%nat := slot l 0]> l in
  let l9 := <[9%nat := slot l8 1]> l8 in
  let l10 := <[10%nat := slot l9 2]> l9 in
  let l11 := <[11%nat := slot l10 3]> l10 in
  let l12 := <[12%nat := slot l11 4]> l11 in
  let l13 := <[13%nat := slot l12 5]> l12 in
  let l14 := <[14%nat := slot l13 6]> l13 in
  let l15 := <[15%nat := slot l14 7]> l14 in
  take 8 l15 = take 8 l /\ length l15 = length l.
Proof. do 16 (destruct l as [|? l]; [split; reflexivity|]). split; reflexivity. Qed.

(** ** The render quad (sections 4.1 and 8 of the spec) *)

(** C1: with no trim rectangle and a sixteen-slot buffer, slots 0-7 hold the
    corners (w1,h1), (w0,h1), (w0,h0), (w1,h0) mapped by the world
    transform, where w0 = W(1-ax), w1 = -W ax, h0 = H(1-ay), h1 = -H ay;
    with the identity transform, anchor (1/2,1/2) and a 10 x 10 frame they
    are (-5,-5), (5,-5), (5,5), (-5,5). *)
Theorem calculateVertices_no_trim (s : Sprite.t) :
  buffer_ok s ->
  Texture.trim (_texture s) = None ->
  let W := Rectangle.width (Texture.orig (_texture s)) in
  let H := Rectangle.height (Texture.orig (_texture s)) in
  let ax := Point.x (anchor s) in
  let ay := Point.y (anchor s) in
  take 8 (vertexData (calculateVertices s))
  = quad (worldTransform s) (W * (1 - ax)) (- (W * ax)) (H * (1 - ay)) (- (H * ay))
  /\ (worldTransform s = Matrix.IDENTITY ->
      anchor s = Point.mk (1 / 2) (1 / 2) ->
      W = num 10 -> H = num 10 ->
      take 8 (vertexData (calculateVertices s))
      = [num (-5); num (-5); num 5; num (-5); num 5; num 5; num (-5); num 5]).
Proof.
  intros Hok Htrim W H ax ay.
  assert (Hgen : take 8 (vertexData (calculateVertices s))
    = quad (worldTransform s) (W * (1 - ax)) (- (W * ax))
        (H * (1 - ay)) (- (H * ay))).
  { unfold calculateVertices. rewrite Htrim. cbv zeta.
    cbn [vertexData with_vertexData]. rewrite store_low by exact Hok.
    unfold quad, world_x, world_y. subst W H ax ay. each_slot ltac:(ring). }
  split; [exact Hgen|].
  intros Hwt Ha HW HH. rewrite Hgen. subst ax ay. rewrite Hwt, Ha, HW, HH.
  compute_done.
Qed.

Lemma calculateVertices_no_trim_witness :
  take 8 (vertexData (calculateVertices centred))
  = [num (-5); num (-5); num 5; num (-5); num 5; num 5; num (-5); num 5].
Proof.
  apply (calculateVertices_no_trim centred); reflexivity.
Defined.

(** C2: with a trim rectangle (tx0,ty0,tw,th) and a sixteen-slot buffer,
    slots 0-7 hold the same corner order for w1 = tx0 - ax W, w0 = w1 + tw,
    h1 = ty0 - ay H, h0 = h1 + th; a 10 x 10 frame trimmed to
    (2,3,4,5), anchor (0,0) and the identity transform give
    (2,3), (6,3), (6,8), (2,8). *)
Theorem calculateVertices_trim (s : Sprite.t) (trim : Rectangle.t) :
  buffer_ok s ->
  Texture.trim (_texture s) = Some trim ->
  let W := Rectangle.width (Texture.orig (_texture s)) in
  let H := Rectangle.height (Texture.orig (_texture s)) in
  let ax := Point.x (anchor s) in
  let ay := Point.y (anchor s) in
  let w1 := Rectangle.x trim - ax * W in
  let w0 := w1 + Rectangle.width trim in
  let h1 := Rectangle.y trim - ay * H in
  let h0 := h1 + Rectangle.height trim in
  take 8 (vertexData (calculateVertices s)) = quad (worldTransform s) w0 w1 h0 h1
  /\ (worldTransform s = Matrix.IDENTITY ->
      anchor s = Point.mk 0 0 ->
      W = num 10 -> H = num 10 ->
      trim = Rectangle.mk (num 2) (num 3) (num 4) (num 5) ->
      take 8 (vertexData (calculateVertices s))
      = [num 2; num 3; num 6; num 3; num 6; num 8; num 2; num 8]).
Proof.
  intros Hok Htrim W H ax ay w1 w0 h1 h0.
  assert (Hgen : take 8 (vertexData (calculateVertices s))
    = quad (worldTransform s) w0 w1 h0 h1).
  { unfold calculateVertices. rewrite Htrim. cbv zeta.
    cbn [vertexData with_vertexData]. rewrite store_low by exact Hok.
    reflexivity. }
  split; [exact Hgen|].
  intros Hwt Ha HW HH Htr. rewrite Hgen. subst w0 h0 w1 h1 ax ay.
  rewrite Hwt, Ha, HW, HH, Htr. compute_done.
Qed.

Lemma calculateVertices_trim_witness :
  take 8 (vertexData (calculateVertices trimmed))
  = [num 2; num 3; num 6; num 3; num 6; num 8; num 2; num 8].
Proof.
  apply (calculateVertices_trim trimmed
           (Rectangle.mk (num 2) (num 3) (num 4) (num 5))); reflexivity.
Defined.

(** C9: a second run of [calculateVertices], with nothing changed in
    between, leaves the whole sprite (the sixteen slots and every other
    field) as the first run left it. *)
Theorem calculateVertices_idempotent (s : Sprite.t) :
  calculateVertices (calculateVertices s) = calculateVertices s.
Proof.
  destruct s as [an [orig [trim|]] w h sc wt l td vd bd cb ch];
    unfold calculateVertices;
    cbn [anchor _texture worldTransform vertexData with_vertexData
         Texture.trim Texture.orig];
    f_equal; apply store_low_twice.
Qed.

(** ** The bounds quad (section 4.2 of the spec) *)

Lemma calculateBoundsVertices_copy (s : Sprite.t) :
  untrimmed s ->
  calculateBoundsVertices s =
  with_vertexData s
    (let l := vertexData s in
     let l8 := <[8%nat := slot l 0]> l in
     let l9 := <[9%nat := slot l8 1]> l8 in
     let l10 := <[10%nat := slot l9 2]> l9 in
     let l11 := <[11%nat := slot l10 3]> l10 in
     let l12 := <[12%nat := slot l11 4]> l11 in
     let l13 := <[13%nat := slot l12 5]> l12 in
     let l14 := <[14%nat := slot l13 6]> l13 in
     <[15%nat := slot l14 7]> l14).
Proof.
  unfold untrimmed, calculateBoundsVertices.
  destruct (Texture.trim (_texture s)) as [trim|]; [|reflexivity].
  intros [Hw Hh]. unfold eqb.
  rewrite !bool_decide_eq_true_2 by assumption. reflexivity.
Qed.

Lemma calculateBoundsVertices_recompute (s : Sprite.t) :
  ~ untrimmed s ->
  let wt := worldTransform s in
  let orig := Texture.orig (_texture s) in
  let w0 := Rectangle.width orig * (1 - Point.x (anchor s)) in
  let w1 := Rectangle.width orig * - Point.x (anchor s) in
  let h0 := Rectangle.height orig * (1 - Point.y (anchor s)) in
  let h1 := Rectangle.height orig * - Point.y (anchor s) in
  calculateBoundsVertices s =
  with_vertexData s
    (<[15%nat := world_y wt w1 h0]> (<[14%nat := world_x wt w1 h0]>
    (<[13%nat := world_y wt w0 h0]> (<[12%nat := world_x wt w0 h0]>
    (<[11%nat := world_y wt w0 h1]> (<[10%nat := world_x wt w0 h1]>
    (<[9%nat := world_y wt w1 h1]> (<[8%nat := world_x wt w1 h1]>
      (vertexData s))))))))).
Proof.
  unfold untrimmed, calculateBoundsVertices.
  destruct (Texture.trim (_texture s)) as [trim|]; [|tauto].
  intros Hne. unfold eqb.
  destruct (decide (Rectangle.width trim
                    = Rectangle.width (Texture.orig (_texture s)))) as [Hw|Hw].
  - rewrite (bool_decide_eq_true_2 _ Hw).
    rewrite bool_decide_eq_false_2 by tauto. reflexivity.
  - rewrite (bool_decide_eq_false_2 _ Hw). reflexivity.
Qed.

(** C3: on a sixteen-slot buffer, when the texture has no trim or the trim
    has the width and height of the logical frame, slots 8-15 receive slots
    0-7 as they are, so that afterwards the bounds quad is the render quad;
    otherwise slots 8-15 receive the quad of the untrimmed half-extents
    under the current transform, whatever the buffer held. *)
Theorem calculateBoundsVertices_spec (s : Sprite.t) :
  buffer_ok s ->
  let s' := calculateBoundsVertices s in
  let W := Rectangle.width (Texture.orig (_texture s)) in
  let H := Rectangle.height (Texture.orig (_texture s)) in
  let ax := Point.x (anchor s) in
  let ay := Point.y (anchor s) in
  ((Texture.trim (_texture s) = None
    \/ (exists trim, Texture.trim (_texture s) = Some trim
          /\ Rectangle.width trim = W /\ Rectangle.height trim = H)) ->
   drop 8 (vertexData s') = take 8 (vertexData s)
   /\ drop 8 (vertexData s') = take 8 (vertexData s'))
  /\
  ((exists trim, Texture.trim (_texture s) = Some trim
      /\ ~ (Rectangle.width trim = W /\ Rectangle.height trim = H)) ->
   drop 8 (vertexData s')
   = quad (worldTransform s) (W * (1 - ax)) (- (W * ax))
       (H * (1 - ay)) (- (H * ay))
   /\ forall l : list Qc, length l = 16%nat ->
      drop 8 (vertexData (calculateBoundsVertices (with_vertexData s l)))
      = drop 8 (vertexData s')).
Proof.
  intros Hok s' W H ax ay. split.
  - intros Hcopy.
    assert (Hu : untrimmed s).
    { unfold untrimmed. destruct Hcopy as [-> | (trim & -> & Hw & Hh)]; tauto. }
    subst s'. rewrite (calculateBoundsVertices_copy s Hu).
    cbn [vertexData with_vertexData].
    destruct (copy_high (vertexData s) Hok) as [Hd Ht].
    cbv zeta in *. rewrite Hd, Ht. tauto.
  - intros (trim & Htrim & Hne).
    assert (Hu : ~ untrimmed s).
    { unfold untrimmed. rewrite Htrim. exact Hne. }
    assert (Hquad : forall l : list Qc, length l = 16%nat ->
      drop 8 (vertexData (calculateBoundsVertices (with_vertexData s l)))
      = quad (worldTransform s) (W * (1 - ax)) (- (W * ax))
          (H * (1 - ay)) (- (H * ay))).
    { intros l Hl.
      rewrite calculateBoundsVertices_recompute by exact Hu.
      cbn [vertexData with_vertexData anchor _texture worldTransform].
      rewrite store_high by exact Hl.
      unfold quad, world_x, world_y. subst W H ax ay. each_slot ltac:(ring). }
    assert (Hs : drop 8 (vertexData s')
      = quad (worldTransform s) (W * (1 - ax)) (- (W * ax))
          (H * (1 - ay)) (- (H * ay))).
    { rewrite <- (Hquad (vertexData s) Hok). subst s'. destruct s; reflexivity. }
    split; [exact Hs|]. intros l Hl. rewrite Hs. apply Hquad, Hl.
Qed.

Lemma calculateBoundsVertices_spec_witness :
  (drop 8 (vertexData (calculateBoundsVertices (calculateVertices full_trim)))
   = take 8 (vertexData (calculateVertices full_trim))
   /\ drop 8 (vertexData (calculateBoundsVertices (calculateVertices full_trim)))
      = take 8 (vertexData (calculateBoundsVertices (calculateVertices full_trim))))
  /\ drop 8 (vertexData (calculateBoundsVertices (calculateVertices trimmed)))
     = quad Matrix.IDENTITY (num 10 * (1 - 0)) (- (num 10 * 0))
         (num 10 * (1 - 0)) (- (num 10 * 0)).
Proof.
  split.
  - refine (proj1 (calculateBoundsVertices_spec (calculateVertices full_trim) _) _).
    + reflexivity.
    + right. eexists. repeat split; reflexivity.
  - refine (proj1 (proj2 (calculateBoundsVertices_spec
                            (calculateVertices trimmed) _) _)).
    + reflexivity.
    + eexists. split; [reflexivity|]. vm_compute. intros [Hw _]. discriminate Hw.
Defined.

(** ** Which slots each calculator writes *)

Lemma calculateVertices_writes (s : Sprite.t) :
  exists l : list Qc,
    calculateVertices s = with_vertexData s l
    /\ length l = length (vertexData s)
    /\ drop 8 l = drop 8 (vertexData s).
Proof.
  unfold calculateVertices.
  destruct (Texture.trim (_texture s)) as [trim|]; cbv zeta;
    eexists; (split; [reflexivity|]); split;
    [ by rewrite !length_insert | apply store_low_frame
    | by rewrite !length_insert | apply store_low_frame ].
Qed.

Lemma calculateBoundsVertices_writes (s : Sprite.t) :
  exists l : list Qc,
    calculateBoundsVertices s = with_vertexData s l
    /\ length l = length (vertexData s)
    /\ take 8 l = take 8 (vertexData s).
Proof.
  destruct (decide (untrimmed s)) as [Hu|Hu].
  - rewrite (calculateBoundsVertices_copy s Hu). eexists.
    split; [reflexivity|].
    destruct (copy_high_frame (vertexData s)) as [Ht Hl]. cbv zeta in *.
    split; assumption.
  - rewrite (calculateBoundsVertices_recompute s Hu). eexists.
    split; [reflexivity|]. split.
    + by rewrite !length_insert.
    + apply store_high_frame.
Qed.

(** The sixteen slots of the constructor stay sixteen. *)
Lemma new_vertexData_ok : length new_vertexData = 16%nat.
Proof. reflexivity. Qed.


Lemma calculateBoundsVertices_buffer_ok (s : Sprite.t) :
  buffer_ok s -> buffer_ok (calculateBoundsVertices s).
Proof.
  unfold buffer_ok. intros Hok.
  destruct (calculateBoundsVertices_writes s) as (l & -> & Hl & _).
  cbn [vertexData with_vertexData]. congruence.
Qed.

Lemma getBounds_buffer_ok (child : Rectangle.t) (s : Sprite.t) :
  buffer_ok s -> buffer_ok (snd (getBounds child s)).
Proof.
  intros Hok. unfold getBounds.
  destruct (_currentBounds s); cbn [negb snd]; [exact Hok|].
  pose proof (calculateBoundsVertices_buffer_ok (with_vertexDirty s false) Hok)
    as Hok'.
  destruct (negb _); exact Hok'.
Qed.

(** C10: [calculateVertices] changes nothing but the buffer, keeps its
    length and leaves slots 8-15 as they were; [calculateBoundsVertices]
    changes nothing but the buffer, keeps its length and leaves slots 0-7 as
    they were; and when the trim differs from the logical frame, what
    [calculateBoundsVertices] stores does not depend on the buffer it
    finds. *)
Theorem calculators_partition (s : Sprite.t) :
  (exists l : list Qc,
     calculateVertices s = with_vertexData s l
     /\ length l = length (vertexData s)
     /\ drop 8 l = drop 8 (vertexData s))
  /\ (exists l : list Qc,
        calculateBoundsVertices s = with_vertexData s l
        /\ length l = length (vertexData s)
        /\ take 8 l = take 8 (vertexData s))
  /\ (forall (trim : Rectangle.t) (l1 l2 : list Qc),
        Texture.trim (_texture s) = Some trim ->
        ~ (Rectangle.width trim = Rectangle.width (Texture.orig (_texture s))
           /\ Rectangle.height trim
              = Rectangle.height (Texture.orig (_texture s))) ->
        length l1 = 16%nat -> length l2 = 16%nat ->
        drop 8 (vertexData (calculateBoundsVertices (with_vertexData s l1)))
        = drop 8 (vertexData (calculateBoundsVertices (with_vertexData s l2)))).
Proof.
  split; [apply calculateVertices_writes|].
  split; [apply calculateBoundsVertices_writes|].
  intros trim l1 l2 Htrim Hne Hl1 Hl2.
  assert (Hu : forall l, ~ untrimmed (with_vertexData s l)).
  { intros l. unfold untrimmed. cbn [_texture with_vertexData].
    rewrite Htrim. exact Hne. }
  rewrite !calculateBoundsVertices_recompute by apply Hu.
  cbn [vertexData with_vertexData anchor _texture worldTransform].
  rewrite !store_high by assumption. reflexivity.
Qed.

Lemma calculators_partition_witness :
  drop 8 (vertexData (calculateBoundsVertices
                        (with_vertexData trimmed (replicate 16 1))))
  = drop 8 (vertexData (calculateBoundsVertices
                          (with_vertexData trimmed (replicate 16 0)))).
Proof.
  apply (calculators_partition trimmed)
    with (trim := Rectangle.mk (num 2) (num 3) (num 4) (num 5)).
  - reflexivity.
  - vm_compute. intros [Hw _]. discriminate Hw.
  - reflexivity.
  - reflexivity.
Defined.

(** ** The bounds rectangle (sections 4.3 and 8 of the spec) *)

Lemma pick_lt (p q : Qc) :
  let m := if ltb p q then p else q in
  m ≤ p /\ m ≤ q /\ (m = p \/ m = q).
Proof.
  unfold ltb. cbv zeta. case_bool_decide as Hlt.
  - split; [reflexivity|]. split; [by apply Qclt_le_weak | by left].
  - split; [by apply Qcnot_lt_le|]. split; [reflexivity | by right].
Qed.

Lemma pick_gt (p q : Qc) :
  let m := if gtb p q then p else q in
  p ≤ m /\ q ≤ m /\ (m = p \/ m = q).
Proof.
  unfold gtb. cbv zeta. case_bool_decide as Hlt.
  - split; [reflexivity|]. split; [by apply Qclt_le_weak | by left].
  - split; [by apply Qcnot_lt_le|]. split; [reflexivity | by right].
Qed.

Lemma least_of_four (v1 v2 v3 v4 : Qc) :
  let m := v1 in
  let m := if ltb v2 m then v2 else m in
  let m := if ltb v3 m then v3 else m in
  let m := if ltb v4 m then v4 else m in
  least m [v1; v2; v3; v4].
Proof.
  cbv zeta.
  set (m2 := if ltb v2 v1 then v2 else v1).
  set (m3 := if ltb v3 m2 then v3 else m2).
  set (m4 := if ltb v4 m3 then v4 else m3).
  destruct (pick_lt v2 v1) as (H2a & H2b & H2c). fold m2 in H2a, H2b, H2c.
  destruct (pick_lt v3 m2) as (H3a & H3b & H3c). fold m3 in H3a, H3b, H3c.
  destruct (pick_lt v4 m3) as (H4a & H4b & H4c). fold m4 in H4a, H4b, H4c.
  split.
  - destruct H4c as [->| ->]; [repeat constructor|].
    destruct H3c as [->| ->]; [repeat constructor|].
    destruct H2c as [->| ->]; repeat constructor.
  - repeat (apply List.Forall_cons); [| | |assumption|apply List.Forall_nil].
    + by etrans; [eassumption|]; etrans; [eassumption|].
    + by etrans; [eassumption|]; etrans; [eassumption|].
    + by etrans; [eassumption|].
Qed.

Lemma greatest_of_four (v1 v2 v3 v4 : Qc) :
  let m := v1 in
  let m := if gtb v2 m then v2 else m in
  let m := if gtb v3 m then v3 else m in
  let m := if gtb v4 m then v4 else m in
  greatest m [v1; v2; v3; v4].
Proof.
  cbv zeta.
  set (m2 := if gtb v2 v1 then v2 else v1).
  set (m3 := if gtb v3 m2 then v3 else m2).
  set (m4 := if gtb v4 m3 then v4 else m3).
  destruct (pick_gt v2 v1) as (H2a & H2b & H2c). fold m2 in H2a, H2b, H2c.
  destruct (pick_gt v3 m2) as (H3a & H3b & H3c). fold m3 in H3a, H3b, H3c.
  destruct (pick_gt v4 m3) as (H4a & H4b & H4c). fold m4 in H4a, H4b, H4c.
  split.
  - destruct H4c as [->| ->]; [repeat constructor|].
    destruct H3c as [->| ->]; [repeat constructor|].
    destruct H2c as [->| ->]; repeat constructor.
  - repeat (apply List.Forall_cons); [| | |assumption|apply List.Forall_nil].
    + by etrans; [|eassumption]; etrans; [|eassumption].
    + by etrans; [|eassumption]; etrans; [|eassumption].
    + by etrans; [|eassumption].
Qed.

(** Widening by one more number, as the union with the child rectangle
    does. *)
Lemma least_widen (m w : Qc) (l : list Qc) :
  least m l -> least (if ltb m w then m else w) (l ++ [w]).
Proof.
  intros [Hin Hall]. destruct (pick_lt m w) as (Ha & Hb & Hc). cbv zeta in *.
  split.
  - apply elem_of_app. destruct Hc as [->| ->]; [by left|right; constructor].
  - apply Forall_app. split; [|by apply List.Forall_cons; [|apply List.Forall_nil]].
    eapply Forall_impl; [exact Hall|]. intros v Hv. cbv beta in Hv.
    etrans; [exact Ha|exact Hv].
Qed.

Lemma greatest_widen (m w : Qc) (l : list Qc) :
  greatest m l -> greatest (if gtb m w then m else w) (l ++ [w]).
Proof.
  intros [Hin Hall]. destruct (pick_gt m w) as (Ha & Hb & Hc). cbv zeta in *.
  split.
  - apply elem_of_app. destruct Hc as [->| ->]; [by left|right; constructor].
  - apply Forall_app. split; [|by apply List.Forall_cons; [|apply List.Forall_nil]].
    eapply Forall_impl; [exact Hall|]. intros v Hv. cbv beta in Hv.
    etrans; [exact Hv|exact Ha].
Qed.

Lemma high_slots (l : list Qc) (x1 y1 x2 y2 x3 y3 x4 y4 : Qc) :
  drop 8 l = [x1; y1; x2; y2; x3; y3; x4; y4] ->
  slot l 8 = x1 /\ slot l 9 = y1 /\ slot l 10 = x2 /\ slot l 11 = y2
  /\ slot l 12 = x3 /\ slot l 13 = y3 /\ slot l 14 = x4 /\ slot l 15 = y4.
Proof.
  intros Hd.
  assert (Hi : forall i : nat,
    slot l (8 + i) = default 0 ([x1; y1; x2; y2; x3; y3; x4; y4] !! i)).
  { intros i. unfold slot. by rewrite <- lookup_drop, Hd. }
  repeat split;
    [ exact (Hi 0%nat) | exact (Hi 1%nat) | exact (Hi 2%nat) | exact (Hi 3%nat)
    | exact (Hi 4%nat) | exact (Hi 5%nat) | exact (Hi 6%nat) | exact (Hi 7%nat) ].
Qed.

(** C4: when no bounds rectangle is memoized, [getBounds] returns the
    rectangle (minX, minY, maxX - minX, maxY - minY), where minX and maxX
    are the least and the greatest of the four x coordinates held in slots
    8-15, together with childX (for minX) and childX + childWidth (for
    maxX) exactly when the sprite has a child, and likewise for y; the quad
    of the rectangle (0,0,8,8) with the child rectangle (5,5,10,10) gives
    (0,0,15,15). *)
Theorem getBounds_aggregate (child : Rectangle.t) (s : Sprite.t)
    (x1 y1 x2 y2 x3 y3 x4 y4 : Qc) :
  _currentBounds s = false ->
  drop 8 (vertexData (snd (getBounds child s)))
  = [x1; y1; x2; y2; x3; y3; x4; y4] ->
  let r := fst (getBounds child s) in
  let widen (v : Qc) : list Qc :=
    match children_length s with O => [] | S _ => [v] end in
  (exists minX minY maxX maxY : Qc,
     r = Rectangle.mk minX minY (maxX - minX) (maxY - minY)
     /\ least minX ([x1; x2; x3; x4] ++ widen (Rectangle.x child))
     /\ least minY ([y1; y2; y3; y4] ++ widen (Rectangle.y child))
     /\ greatest maxX ([x1; x2; x3; x4]
                        ++ widen (Rectangle.x child + Rectangle.width child))
     /\ greatest maxY ([y1; y2; y3; y4]
                        ++ widen (Rectangle.y child + Rectangle.height child)))
  /\ ([x1; y1; x2; y2; x3; y3; x4; y4]
      = [0; 0; num 8; 0; num 8; num 8; 0; num 8] ->
      children_length s <> 0%nat ->
      child = Rectangle.mk (num 5) (num 5) (num 10) (num 10) ->
      r = Rectangle.mk 0 0 (num 15) (num 15)).
Proof.
  intros Hcb Hquad r widen. subst r widen.
  unfold getBounds in *. rewrite Hcb in *. cbn [negb] in *.
  destruct (calculateBoundsVertices_writes (with_vertexDirty s false))
    as (l & Hcbv & _ & _).
  rewrite Hcbv in *. clear Hcbv.
  cbn [vertexData children_length with_vertexData with_vertexDirty] in *.
  destruct (children_length s) as [|n];
    cbn [Nat.eqb negb fst snd vertexData _bounds with__bounds
         with__currentBounds with_vertexData] in *;
    apply high_slots in Hquad;
    destruct Hquad as (-> & -> & -> & -> & -> & -> & -> & ->).
  - split.
    + do 4 eexists. split; [reflexivity|]. rewrite !app_nil_r.
      split; [apply least_of_four|]. split; [apply least_of_four|].
      split; apply greatest_of_four.
    + intros _ Hn. by destruct Hn.
  - split.
    + do 4 eexists. split; [reflexivity|].
      split; [apply least_widen, least_of_four|].
      split; [apply least_widen, least_of_four|].
      split; apply greatest_widen, greatest_of_four.
    + intros Hq _ ->.
      injection Hq as -> -> -> -> -> -> -> ->. compute_done.
Qed.

Lemma getBounds_aggregate_witness :
  fst (getBounds (Rectangle.mk (num 5) (num 5) (num 10) (num 10))
         square8_with_child)
  = Rectangle.mk 0 0 (num 15) (num 15).
Proof.
  refine (proj2 (getBounds_aggregate
                   (Rectangle.mk (num 5) (num 5) (num 10) (num 10))
                   square8_with_child 0 0 (num 8) 0 (num 8) (num 8) 0 (num 8)
                   _ _) _ _ _).
  - reflexivity.
  - compute_done.
  - reflexivity.
  - compute_done.
  - reflexivity.
Defined.

(** ** Local bounds (section 4.4 of the spec) *)

(** C8: [getLocalBounds] returns (-W ax, -H ay, W, H), and replacing the
    trim rectangle and the world transform, with frame and anchor kept,
    does not change the rectangle returned. *)
Theorem getLocalBounds_spec (s : Sprite.t) :
  let W := Rectangle.width (Texture.orig (_texture s)) in
  let H := Rectangle.height (Texture.orig (_texture s)) in
  let ax := Point.x (anchor s) in
  let ay := Point.y (anchor s) in
  fst (getLocalBounds s) = Rectangle.mk (- (W * ax)) (- (H * ay)) W H
  /\ forall (trim : option Rectangle.t) (wt : Matrix.t),
       fst (getLocalBounds
              (with_worldTransform
                 (with__texture s (Texture.with_trim (_texture s) trim)) wt))
       = fst (getLocalBounds s).
Proof.
  intros W H ax ay. split.
  - unfold getLocalBounds. cbn [fst _bounds with__bounds].
    subst W H ax ay. f_equal; ring.
  - intros trim wt. reflexivity.
Qed.

(** ** Hit test (sections 4.5 and 8 of the spec) *)

(** The modelled [Matrix.applyInverse] undoes the world transform wherever
    the transform can be undone. *)
Lemma applyInverse_undoes (m : Matrix.t) (p : Point.t) :
  Matrix.a m * Matrix.d m + Matrix.c m * - Matrix.b m <> 0 ->
  Matrix.applyInverse m
    (Point.mk (world_x m (Point.x p) (Point.y p))
              (world_y m (Point.x p) (Point.y p)))
  = p.
Proof.
  intros Hdet. destruct p as [px py].
  unfold Matrix.applyInverse, world_x, world_y. cbn [Point.x Point.y].
  f_equal; field; exact Hdet.
Qed.

(** C5: whatever the inverse transform, [containsPoint] answers true exactly
    when the local point (lx,ly) has -W ax < lx < -W ax + W and
    -H ay < ly < -H ay + H, all four strict; with a 10 x 10 frame, anchor
    (0,0) and the identity transform, (0,0) and (10,10) are outside and
    (5,5) is inside. *)
Theorem containsPoint_strict :
  (forall (applyInverse : Matrix.t -> Point.t -> Point.t)
          (s : Sprite.t) (point : Point.t),
     let W := Rectangle.width (Texture.orig (_texture s)) in
     let H := Rectangle.height (Texture.orig (_texture s)) in
     let ax := Point.x (anchor s) in
     let ay := Point.y (anchor s) in
     let lx := Point.x (applyInverse (worldTransform s) point) in
     let ly := Point.y (applyInverse (worldTransform s) point) in
     containsPoint applyInverse s point = true
     <-> (- (W * ax) < lx /\ lx < - (W * ax) + W)
         /\ (- (H * ay) < ly /\ ly < - (H * ay) + H))
  /\ (forall s : Sprite.t,
        Rectangle.width (Texture.orig (_texture s)) = num 10 ->
        Rectangle.height (Texture.orig (_texture s)) = num 10 ->
        anchor s = Point.mk 0 0 ->
        worldTransform s = Matrix.IDENTITY ->
        containsPoint Matrix.applyInverse s (Point.mk 0 0) = false
        /\ containsPoint Matrix.applyInverse s (Point.mk (num 5) (num 5)) = true
        /\ containsPoint Matrix.applyInverse s (Point.mk (num 10) (num 10))
           = false).
Proof.
  split.
  - intros inv s point W H ax ay lx ly. unfold containsPoint.
    fold W H ax ay lx ly.
    replace (- W * ax) with (- (W * ax)) by ring.
    replace (- H * ay) with (- (H * ay)) by ring.
    unfold gtb, ltb. repeat case_bool_decide; cbn [andb]; intuition congruence.
  - intros s HW HH Ha Hwt. unfold containsPoint. rewrite HW, HH, Ha, Hwt.
    repeat split; compute_done.
Qed.

Lemma containsPoint_strict_witness :
  containsPoint Matrix.applyInverse box10 (Point.mk 0 0) = false
  /\ containsPoint Matrix.applyInverse box10 (Point.mk (num 5) (num 5)) = true
  /\ containsPoint Matrix.applyInverse box10 (Point.mk (num 10) (num 10))
     = false.
Proof.
  apply (proj2 containsPoint_strict box10); reflexivity.
Defined.

(** ** Sizing (sections 4.6 and 8 of the spec) *)

Lemma neg_iff_opp_pos (v : Qc) : v < 0 <-> 0 < - v.
Proof. by rewrite (Qclt_minus_iff v 0), Qcplus_0_l. Qed.

Lemma opp_neg_iff_pos (v : Qc) : - v < 0 <-> 0 < v.
Proof. by rewrite neg_iff_opp_pos, Qcopp_involutive. Qed.



Lemma div_neg_iff (v W : Qc) : 0 < W -> v / W < 0 <-> v < 0.
Proof.
  intros HW. assert (W <> 0) by (symmetry; by apply Qclt_not_eq).
  rewrite (Qcmult_lt_mono_pos_r (v / W) 0 W HW), Qcmult_0_l.
  by replace (v / W * W) with v by (field; assumption).
Qed.

Lemma div_pos (v W : Qc) : 0 < v -> 0 < W -> 0 < v / W.
Proof. intros Hv HW. apply Qcmult_pos_pos; [exact Hv | by apply Qcinv_pos]. Qed.


Lemma sign_pos (v : Qc) : 0 < v -> sign v = 1.
Proof.
  intros Hv. unfold sign, truthy, ltb.
  rewrite bool_decide_eq_true_2 by (symmetry; by apply Qclt_not_eq).
  rewrite bool_decide_eq_false_2; [reflexivity|].
  by apply Qcle_not_lt, Qclt_le_weak.
Qed.

Lemma sign_neg (v : Qc) : v < 0 -> sign v = - 1.
Proof.
  intros Hv. unfold sign, truthy, ltb.
  rewrite bool_decide_eq_true_2 by (by apply Qclt_not_eq).
  by rewrite bool_decide_eq_true_2.
Qed.

(** The sign that the setters use: [utils.sign(v) || 1]. *)
Lemma sign_or_one (v : Qc) :
  js_or (sign v) 1 = if decide (v = 0) then 1 else sign v.
Proof.
  case_decide as Hz.
  - subst v. reflexivity.
  - destruct (Qc_dec v 0) as [[Hlt|Hgt]| ->]; [| |done].
    + rewrite (sign_neg v Hlt). reflexivity.
    + rewrite (sign_pos v Hgt). reflexivity.
Qed.

Lemma sign_or_one_cases (v : Qc) :
  (v < 0 /\ js_or (sign v) 1 = - 1) \/ (0 ≤ v /\ js_or (sign v) 1 = 1).
Proof.
  destruct (Qc_dec v 0) as [[Hlt|Hgt]| ->].
  - left. split; [exact Hlt|]. rewrite (sign_neg v Hlt). reflexivity.
  - right. split; [by apply Qclt_le_weak|]. rewrite (sign_pos v Hgt). reflexivity.
  - right. split; reflexivity.
Qed.





(** C7, as the claim states it, fails on a remembered value of 0: the
    handler leaves the scale 2 as it is, where the formula of the setter
    gives 0. *)
Lemma onTextureUpdate_skips_zero_width :
  _width unsized = 0
  /\ Point.x (scale (_onTextureUpdate unsized)) = 2
  /\ Point.x (scale (set_width unsized (_width unsized))) = 0
  /\ Point.x (scale (_onTextureUpdate unsized))
     <> Point.x (scale (set_width unsized (_width unsized))).
Proof. repeat split; compute_done. Qed.

(** At a scale of 0 the handler, which has no [|| 1], stores 0 where the
    setter stores 50 / 100. *)
Example onTextureUpdate_zero_scale :
  Point.x (scale (_onTextureUpdate collapsed)) = 0
  /\ Point.x (scale (set_width collapsed (_width collapsed))) = 1 / 2.
Proof. split; compute_done. Qed.

(** C7 (amended): when the remembered width is not 0 and the current
    scaleX is not 0, [_onTextureUpdate] sets scaleX to what the width
    setter would store for the remembered width, sign(scaleX) width / W
    for the logical width W of the texture now in place; when the
    remembered width is 0 it leaves scaleX as it is.  The same holds of the
    remembered height, scaleY and the logical height. *)
Theorem onTextureUpdate_reapplies (s : Sprite.t) :
  let W := Rectangle.width (Texture.orig (_texture s)) in
  let H := Rectangle.height (Texture.orig (_texture s)) in
  let sx := Point.x (scale s) in
  let sy := Point.y (scale s) in
  (_width s <> 0 -> sx <> 0 ->
   Point.x (scale (_onTextureUpdate s))
   = Point.x (scale (set_width s (_width s)))
   /\ Point.x (scale (_onTextureUpdate s)) = sign sx * _width s / W)
  /\ (_width s = 0 -> Point.x (scale (_onTextureUpdate s)) = sx)
  /\ (_height s <> 0 -> sy <> 0 ->
      Point.y (scale (_onTextureUpdate s))
      = Point.y (scale (set_height s (_height s)))
      /\ Point.y (scale (_onTextureUpdate s)) = sign sy * _height s / H)
  /\ (_height s = 0 -> Point.y (scale (_onTextureUpdate s)) = sy).
Proof.
  intros W H sx sy.
  assert (Hx : Point.x (scale (_onTextureUpdate s))
               = if truthy (_width s) then sign sx * _width s / W else sx).
  { subst W H sx sy. destruct s as [an tex w h sc wt l td vd bd cb ch].
    unfold _onTextureUpdate.
    cbn [_width with_textureDirty].
    destruct (truthy w);
      cbn [_width _height scale _texture with_textureDirty with_scale];
      destruct (truthy h); reflexivity. }
  assert (Hy : Point.y (scale (_onTextureUpdate s))
               = if truthy (_height s) then sign sy * _height s / H else sy).
  { subst W H sx sy. destruct s as [an tex w h sc wt l td vd bd cb ch].
    unfold _onTextureUpdate.
    cbn [_width with_textureDirty].
    destruct (truthy w);
      cbn [_width _height scale _texture with_textureDirty with_scale];
      destruct (truthy h); reflexivity. }
  rewrite Hx, Hy. unfold truthy.
  repeat split.
  - rewrite bool_decide_eq_true_2 by assumption.
    unfold set_width. cbn [scale with_scale with__width Point.x].
    rewrite sign_or_one. fold sx. by rewrite decide_False.
  - by rewrite bool_decide_eq_true_2.
  - intros Hz. rewrite bool_decide_eq_false_2; [reflexivity|]. by intros Hn.
  - rewrite bool_decide_eq_true_2 by assumption.
    unfold set_height. cbn [scale with_scale with__height Point.y].
    rewrite sign_or_one. fold sy. by rewrite decide_False.
  - by rewrite bool_decide_eq_true_2.
  - intros Hz. rewrite bool_decide_eq_false_2; [reflexivity|]. by intros Hn.
Qed.

Lemma onTextureUpdate_reapplies_witness :
  (Point.x (scale (_onTextureUpdate resized))
   = Point.x (scale (set_width resized (_width resized)))
   /\ Point.y (scale (_onTextureUpdate resized))
      = Point.y (scale (set_height resized (_height resized))))
  /\ (Point.x (scale (_onTextureUpdate unsized)) = Point.x (scale unsized)
      /\ Point.y (scale (_onTextureUpdate unsized)) = Point.y (scale unsized)).
Proof.
  destruct (onTextureUpdate_reapplies resized) as (Hx & _ & Hy & _).
  destruct (onTextureUpdate_reapplies unsized) as (_ & Hx0 & _ & Hy0).
  split; split.
  - apply Hx; compute_done.
  - apply Hy; compute_done.
  - apply Hx0. reflexivity.
  - apply Hy0. reflexivity.
Defined.

(** * Further properties of the geometry *)

Lemma Qc_eq_Qeq (x y : Qc) : x = y -> (x : Q) == y.
Proof. by intros ->. Qed.

(** Linear facts about [Qc] are read as facts about [Q], where [lra]
    decides them. *)
Ltac qc_to_q :=
  repeat match goal with
  | H : @eq Qc _ _ |- _ => apply Qc_eq_Qeq in H
  | |- @eq Qc _ _ => apply Qc_is_canon
  | |- ~ _ => intro
  end;
  unfold Qcle, Qclt, Qcdiv, Qcminus, Qcplus, Qcmult, Qcopp, Q2Qc in *;
  cbn [this] in *;
  rewrite ?Qred_correct in *.

Ltac qc_lra := qc_to_q; lra.













Lemma copy_high_values (l : list Qc) :
  (let l8 := <[8%nat := slot l 0]> l in
   let l9 := <[9%nat := slot l8 1]> l8 in
   let l10 := <[10%nat := slot l9 2]> l9 in
   let l11 := <[11%nat := slot l10 3]> l10 in
   let l12 := <[12%nat := slot l11 4]> l11 in
   let l13 := <[13%nat := slot l12 5]> l12 in
   let l14 := <[14%nat := slot l13 6]> l13 in
   <[15%nat := slot l14 7]> l14)
  = <[15%nat := slot l 7]> (<[14%nat := slot l 6]> (<[13%nat := slot l 5]>
      (<[12%nat := slot l 4]> (<[11%nat := slot l 3]> (<[10%nat := slot l 2]>
        (<[9%nat := slot l 1]> (<[8%nat := slot l 0]> l))))))).
Proof. do 16 (destruct l as [|? l]; [reflexivity|]). reflexivity. Qed.

Lemma store_high_twice (l : list Qc) (v0 v1 v2 v3 v4 v5 v6 v7 : Qc) :
  let store l :=
    <[15%nat:=v7]> (<[14%nat:=v6]> (<[13%nat:=v5]> (<[12%nat:=v4]>
      (<[11%nat:=v3]> (<[10%nat:=v2]> (<[9%nat:=v1]> (<[8%nat:=v0]> l))))))) in
  store (store l) = store l.
Proof. do 16 (destruct l as [|? l]; [reflexivity|]). reflexivity. Qed.

Lemma slot_of_take (l k : list Qc) (i : nat) :
  take 8 k = take 8 l -> (i < 8)%nat -> slot k i = slot l i.
Proof.
  intros Ht Hi. unfold slot.
  by rewrite <- (lookup_take_lt k 8 i Hi), Ht, lookup_take_lt.
Qed.

(** X5: a second run of [calculateBoundsVertices], with nothing changed in
    between, leaves the whole sprite as the first run left it. *)
Theorem calculateBoundsVertices_idempotent (s : Sprite.t) :
  calculateBoundsVertices (calculateBoundsVertices s)
  = calculateBoundsVertices s.
Proof.
  destruct (decide (untrimmed s)) as [Hu|Hu].
  - assert (Hu' : untrimmed (calculateBoundsVertices s)).
    { destruct (calculateBoundsVertices_writes s) as (l & -> & _). exact Hu. }
    rewrite (calculateBoundsVertices_copy _ Hu').
    rewrite (calculateBoundsVertices_copy s Hu).
    rewrite !copy_high_values.
    cbn [vertexData with_vertexData].
    set (l := vertexData s).
    set (k := <[15%nat := slot l 7]> _).
    assert (Ht : take 8 k = take 8 l) by apply store_high_frame.
    rewrite !(slot_of_take l k) by (exact Ht || lia).
    subst k. rewrite store_high_twice. reflexivity.
  - assert (Hu' : ~ untrimmed (calculateBoundsVertices s)).
    { destruct (calculateBoundsVertices_writes s) as (l & -> & _). exact Hu. }
    rewrite (calculateBoundsVertices_recompute _ Hu').
    rewrite (calculateBoundsVertices_recompute s Hu).
    cbn [vertexData with_vertexData anchor _texture worldTransform].
    rewrite store_high_twice. reflexivity.
Qed.

(** ** The memoized bounds rectangle *)

Lemma calculateBoundsVertices_vertexDirty (s : Sprite.t) (f : bool) :
  calculateBoundsVertices (with_vertexDirty s f)
  = with_vertexDirty (calculateBoundsVertices s) f.
Proof.
  destruct s as [an [orig [trim|]] w h sc wt l td vd bd cb ch];
    unfold calculateBoundsVertices;
    cbn [anchor _texture worldTransform vertexData with_vertexDirty
         Texture.trim Texture.orig];
    [destruct (eqb _ _ && eqb _ _)|]; reflexivity.
Qed.

(** What [getBounds] computes when nothing is memoized: the rectangle of
    the least and greatest coordinates of slots 8-15, as
    [calculateBoundsVertices] fills them, and of the child rectangle if the
    sprite has children; the rectangle is stored in [_bounds] and
    memoized. *)
Lemma getBounds_fresh (child : Rectangle.t) (s : Sprite.t) :
  _currentBounds s = false ->
  let l := vertexData (calculateBoundsVertices s) in
  let widen (v : Qc) : list Qc :=
    match children_length s with O => [] | S _ => [v] end in
  exists minX minY maxX maxY : Qc,
    getBounds child s
    = (Rectangle.mk minX minY (maxX - minX) (maxY - minY),
       with__currentBounds
         (with__bounds (with_vertexDirty (calculateBoundsVertices s) false)
            (Rectangle.mk minX minY (maxX - minX) (maxY - minY)))
         true)
    /\ least minX ([slot l 8; slot l 10; slot l 12; slot l 14]
                   ++ widen (Rectangle.x child))
    /\ least minY ([slot l 9; slot l 11; slot l 13; slot l 15]
                   ++ widen (Rectangle.y child))
    /\ greatest maxX ([slot l 8; slot l 10; slot l 12; slot l 14]
                      ++ widen (Rectangle.x child + Rectangle.width child))
    /\ greatest maxY ([slot l 9; slot l 11; slot l 13; slot l 15]
                      ++ widen (Rectangle.y child + Rectangle.height child)).
Proof.
  intros Hcb l widen. subst l widen.
  unfold getBounds. rewrite Hcb. cbn [negb].
  rewrite calculateBoundsVertices_vertexDirty.
  destruct (calculateBoundsVertices_writes s) as (l & Hcbv & _ & _).
  rewrite Hcbv.
  cbn [vertexData children_length with_vertexData with_vertexDirty].
  destruct (children_length s) as [|n];
    cbn [Nat.eqb negb fst snd vertexData _bounds with__bounds
         with__currentBounds with_vertexData].
  - do 4 eexists. split; [reflexivity|]. rewrite !app_nil_r.
    split; [apply least_of_four|]. split; [apply least_of_four|].
    split; apply greatest_of_four.
  - do 4 eexists. split; [reflexivity|].
    split; [apply least_widen, least_of_four|].
    split; [apply least_widen, least_of_four|].
    split; apply greatest_widen, greatest_of_four.
Qed.

Lemma getBounds_memoized (child : Rectangle.t) (s : Sprite.t) :
  _currentBounds s = true -> getBounds child s = (_bounds s, s).
Proof. intros Hcb. unfold getBounds. by rewrite Hcb. Qed.

Lemma getBounds_memoizes (child : Rectangle.t) (s : Sprite.t) :
  _currentBounds (snd (getBounds child s)) = true
  /\ _bounds (snd (getBounds child s)) = fst (getBounds child s)
  /\ anchor (snd (getBounds child s)) = anchor s
  /\ _texture (snd (getBounds child s)) = _texture s.
Proof.
  destruct (_currentBounds s) eqn:Hcb.
  - unfold getBounds. rewrite Hcb. cbn [negb fst snd]. tauto.
  - destruct (getBounds_fresh child s Hcb)
      as (minX & minY & maxX & maxY & -> & _).
    destruct (calculateBoundsVertices_writes s) as (l & -> & _).
    cbn [fst snd _currentBounds _bounds anchor _texture with__currentBounds
         with__bounds with_vertexDirty with_vertexData]. tauto.
Qed.

(** X6: once [getBounds] has run, a further call returns the same rectangle
    and changes nothing, whatever child rectangle it is given and even
    after the texture and the world transform were replaced: the memo
    answers until [_currentBounds] is cleared. *)
Theorem getBounds_memo_outlives_changes (child child' : Rectangle.t)
    (s : Sprite.t) (tex : Texture.t) (wt : Matrix.t) :
  let changed :=
    with_worldTransform (with__texture (snd (getBounds child s)) tex) wt in
  getBounds child' changed = (fst (getBounds child s), changed).
Proof.
  intros changed.
  destruct (getBounds_memoizes child s) as (Hcb & Hb & _).
  rewrite getBounds_memoized; [|exact Hcb].
  subst changed. cbn [_bounds with_worldTransform with__texture].
  by rewrite Hb.
Qed.

(** X7: [getLocalBounds] writes the rectangle that [getBounds] has
    memoized: after it, [getBounds] answers with the local bounds. *)
Theorem getLocalBounds_overwrites_memo (child child' : Rectangle.t)
    (s : Sprite.t) :
  fst (getBounds child' (snd (getLocalBounds (snd (getBounds child s)))))
  = fst (getLocalBounds s).
Proof.
  destruct (getBounds_memoizes child s) as (Hcb & _ & Han & Htex).
  rewrite getBounds_memoized; [|exact Hcb].
  unfold getLocalBounds. cbn [fst snd _bounds with__bounds].
  by rewrite Han, Htex.
Qed.

Lemma least_le_greatest (m M v : Qc) (l k : list Qc) :
  least m (v :: l) -> greatest M (v :: k) -> m ≤ M.
Proof.
  intros [_ Hm] [_ HM].
  apply Forall_cons in Hm as [Hm _]. apply Forall_cons in HM as [HM _].
  by etrans.
Qed.

(** X8: a rectangle that [getBounds] computes has width and height at
    least 0, whatever the transform, the frame and the child rectangle. *)
Theorem getBounds_size_nonnegative (child : Rectangle.t) (s : Sprite.t) :
  _currentBounds s = false ->
  0 ≤ Rectangle.width (fst (getBounds child s))
  /\ 0 ≤ Rectangle.height (fst (getBounds child s)).
Proof.
  intros Hcb.
  destruct (getBounds_fresh child s Hcb)
    as (minX & minY & maxX & maxY & -> & HminX & HminY & HmaxX & HmaxY).
  cbn [fst Rectangle.width Rectangle.height]. cbn [app] in *.
  pose proof (least_le_greatest _ _ _ _ _ HminX HmaxX).
  pose proof (least_le_greatest _ _ _ _ _ HminY HmaxY).
  split; qc_lra.
Qed.

Lemma getBounds_size_nonnegative_witness :
  0 ≤ Rectangle.width
        (fst (getBounds (Rectangle.mk (num 5) (num 5) (num 10) (num 10))
                square8_with_child))
  /\ 0 ≤ Rectangle.height
          (fst (getBounds (Rectangle.mk (num 5) (num 5) (num 10) (num 10))
                  square8_with_child)).
Proof.
  apply (getBounds_size_nonnegative
           (Rectangle.mk (num 5) (num 5) (num 10) (num 10))
           square8_with_child).
  reflexivity.
Defined.

(** ** The bounds rectangle of a transformed frame *)

Ltac members H :=
  repeat (apply elem_of_cons in H as [H|H]); [..|by apply elem_of_nil in H].












Lemma least_of_zeros (m : Qc) : least m [0; 0; 0; 0] -> m = 0.
Proof. intros [Hm _]. by members Hm. Qed.

Lemma greatest_of_zeros (m : Qc) : greatest m [0; 0; 0; 0] -> m = 0.
Proof. intros [Hm _]. by members Hm. Qed.

(** X12: [getBounds] does not run [calculateVertices]: on a sprite whose
    buffer is still the zeroed one of the constructor and whose texture has
    no trim, or a trim with the size of the frame, it copies the zeroes and
    answers, when the sprite has no children, with the rectangle
    (0,0,0,0), whatever the frame, the anchor and the transform. *)
Theorem getBounds_before_first_render (child : Rectangle.t) (s : Sprite.t) :
  vertexData s = new_vertexData ->
  _currentBounds s = false -> children_length s = 0%nat ->
  (Texture.trim (_texture s) = None
   \/ exists t : Rectangle.t,
        Texture.trim (_texture s) = Some t
        /\ Rectangle.width t = Rectangle.width (Texture.orig (_texture s))
        /\ Rectangle.height t = Rectangle.height (Texture.orig (_texture s))) ->
  fst (getBounds child s) = Rectangle.mk 0 0 0 0.
Proof.
  intros Hv Hcb Hch Hcopy.
  assert (Hu : untrimmed s).
  { unfold untrimmed. destruct Hcopy as [-> | (t & -> & Hw & Hh)]; tauto. }
  destruct (getBounds_fresh child s Hcb)
    as (minX & minY & maxX & maxY & -> & HminX & HminY & HmaxX & HmaxY).
  rewrite Hch, app_nil_r in HminX, HminY, HmaxX, HmaxY.
  rewrite (calculateBoundsVertices_copy s Hu), copy_high_values, Hv
    in HminX, HminY, HmaxX, HmaxY.
  apply least_of_zeros in HminX, HminY.
  apply greatest_of_zeros in HmaxX, HmaxY.
  subst. cbn [fst]. f_equal; ring.
Qed.

Lemma getBounds_before_first_render_witness :
  fst (getBounds frame10 stretched) = Rectangle.mk 0 0 0 0.
Proof.
  apply (getBounds_before_first_render frame10 stretched).
  - reflexivity.
  - reflexivity.
  - reflexivity.
  - left. reflexivity.
Defined.

(** ** Hit test and local bounds *)

(** X13: a point is hit exactly when its local image lies strictly inside
    the rectangle that [getLocalBounds] returns; the trim plays no part. *)
Theorem containsPoint_inside_local_bounds
    (applyInverse : Matrix.t -> Point.t -> Point.t)
    (s : Sprite.t) (point : Point.t) :
  let r := fst (getLocalBounds s) in
  let p := applyInverse (worldTransform s) point in
  containsPoint applyInverse s point = true
  <-> (Rectangle.x r < Point.x p
       /\ Point.x p < Rectangle.x r + Rectangle.width r)
      /\ (Rectangle.y r < Point.y p
          /\ Point.y p < Rectangle.y r + Rectangle.height r).
Proof.
  intros r p. subst r p. unfold containsPoint, getLocalBounds.
  cbn [fst _bounds with__bounds Rectangle.x Rectangle.y Rectangle.width
       Rectangle.height].
  unfold gtb, ltb. repeat case_bool_decide; cbn [andb]; intuition congruence.
Qed.

(** X14: a sprite whose logical frame has width or height 0, or less, is
    hit by no point, whatever the transform and the anchor. *)
Theorem containsPoint_empty_frame
    (applyInverse : Matrix.t -> Point.t -> Point.t)
    (s : Sprite.t) (point : Point.t) :
  Rectangle.width (Texture.orig (_texture s)) ≤ 0
  \/ Rectangle.height (Texture.orig (_texture s)) ≤ 0 ->
  containsPoint applyInverse s point = false.
Proof.
  intros Hempty. unfold containsPoint, gtb, ltb.
  set (W := Rectangle.width (Texture.orig (_texture s))) in *.
  set (H := Rectangle.height (Texture.orig (_texture s))) in *.
  generalize dependent (- W * Point.x (anchor s)).
  generalize dependent (- H * Point.y (anchor s)).
  generalize dependent (applyInverse (worldTransform s) point).
  intros p y1 x1. clearbody W H.
  repeat case_bool_decide; cbn [andb]; try reflexivity; exfalso;
    destruct Hempty; qc_lra.
Qed.

Lemma containsPoint_empty_frame_witness :
  containsPoint Matrix.applyInverse
    (sized (Point.mk 1 1) 0 (num 10) 0 0) (Point.mk 0 (num 5))
  = false.
Proof.
  apply (containsPoint_empty_frame Matrix.applyInverse
           (sized (Point.mk 1 1) 0 (num 10) 0 0) (Point.mk 0 (num 5))).
  left. compute_done.
Defined.

(** * Further properties of the sizing *)


Lemma sign_or_one_unit (v : Qc) :
  js_or (sign v) 1 = 1 \/ js_or (sign v) 1 = - 1.
Proof. destruct (sign_or_one_cases v) as [[_ ->]|[_ ->]]; tauto. Qed.

(** The sign of what a write stores on one axis. *)
Lemma resize_axis_negative (sc W value : Qc) :
  0 < W -> value < 0 ->
  sign (js_or (sign sc) 1 * value / W) = - js_or (sign sc) 1.
Proof.
  intros HW Hv.
  assert (Hq : value / W < 0) by (by apply div_neg_iff).
  destruct (sign_or_one_unit sc) as [-> | ->].
  - rewrite Qcmult_1_l. by apply sign_neg.
  - replace (- 1 * value / W) with (- (value / W)) by (unfold Qcdiv; ring).
    rewrite Qcopp_involutive. apply sign_pos. by apply neg_iff_opp_pos.
Qed.

(** X15: on a frame of positive size, writing a negative width or height
    mirrors the sprite: the new scale has the sign opposite to s, where s
    is the sign of the old scale, or 1 when the old scale is 0. *)
Theorem negative_write_mirrors (s : Sprite.t) (v : Qc) :
  v < 0 ->
  let sx := Point.x (scale s) in
  let sy := Point.y (scale s) in
  (0 < Rectangle.width (Texture.orig (_texture s)) ->
   sign (Point.x (scale (set_width s v)))
   = - (if decide (sx = 0) then 1 else sign sx))
  /\ (0 < Rectangle.height (Texture.orig (_texture s)) ->
      sign (Point.y (scale (set_height s v)))
      = - (if decide (sy = 0) then 1 else sign sy)).
Proof.
  intros Hv sx sy. split; intros Hpos.
  - rewrite <- (sign_or_one sx). unfold set_width.
    cbn [scale with_scale with__width Point.x].
    by apply resize_axis_negative.
  - rewrite <- (sign_or_one sy). unfold set_height.
    cbn [scale with_scale with__height Point.y].
    by apply resize_axis_negative.
Qed.

Lemma negative_write_mirrors_witness :
  sign (Point.x (scale (set_width upright (num (-200)))))
  = - (if decide (Point.x (scale upright) = 0) then 1
       else sign (Point.x (scale upright)))
  /\ sign (Point.y (scale (set_height upright (num (-200)))))
     = - (if decide (Point.y (scale upright) = 0) then 1
          else sign (Point.y (scale upright))).
Proof.
  destruct (negative_write_mirrors upright (num (-200))) as [Hx Hy].
  - compute_done.
  - split; [apply Hx | apply Hy]; compute_done.
Defined.

(** X16: a write of 0 forgets the orientation: on a frame of positive
    size, after width = 0 a write of v stores the scale v / W, also on a
    sprite that was mirrored; likewise for the height. *)
Theorem zero_write_forgets_orientation (s : Sprite.t) (v : Qc) :
  (0 < Rectangle.width (Texture.orig (_texture s)) ->
   Point.x (scale (set_width (set_width s 0) v))
   = v / Rectangle.width (Texture.orig (_texture s)))
  /\ (0 < Rectangle.height (Texture.orig (_texture s)) ->
      Point.y (scale (set_height (set_height s 0) v))
      = v / Rectangle.height (Texture.orig (_texture s))).
Proof.
  split; intros Hpos.
  - unfold set_width.
    cbn [scale _texture with_scale with__width Point.x].
    replace (js_or (sign (Point.x (scale s))) 1 * 0
             / Rectangle.width (Texture.orig (_texture s))) with 0
      by (unfold Qcdiv; ring).
    change (js_or (sign 0) 1) with 1. by rewrite Qcmult_1_l.
  - unfold set_height.
    cbn [scale _texture with_scale with__height Point.y].
    replace (js_or (sign (Point.y (scale s))) 1 * 0
             / Rectangle.height (Texture.orig (_texture s))) with 0
      by (unfold Qcdiv; ring).
    change (js_or (sign 0) 1) with 1. by rewrite Qcmult_1_l.
Qed.

Lemma zero_write_forgets_orientation_witness :
  Point.x (scale (set_width (set_width mirrored 0) (num 200)))
  = num 200 / Rectangle.width (Texture.orig (_texture mirrored))
  /\ Point.y (scale (set_height (set_height mirrored 0) (num 200)))
     = num 200 / Rectangle.height (Texture.orig (_texture mirrored)).
Proof.
  destruct (zero_write_forgets_orientation mirrored (num 200)) as [Hx Hy].
  split; [apply Hx | apply Hy]; compute_done.
Defined.

(** ** The handler of the texture update *)

(** The state that [_onTextureUpdate] leaves. *)
Lemma onTextureUpdate_state (s : Sprite.t) :
  let W := Rectangle.width (Texture.orig (_texture s)) in
  let H := Rectangle.height (Texture.orig (_texture s)) in
  let sx := Point.x (scale s) in
  let sy := Point.y (scale s) in
  _onTextureUpdate s
  = with_scale (with_textureDirty s true)
      (Point.mk (if truthy (_width s) then sign sx * _width s / W else sx)
                (if truthy (_height s) then sign sy * _height s / H else sy)).
Proof.
  destruct s as [an tex w h [sx sy] wt l td vd bd cb ch].
  unfold _onTextureUpdate. cbn [_width with_textureDirty].
  destruct (truthy w);
    cbn [_width _height scale _texture with_textureDirty with_scale
         Point.x Point.y];
    destruct (truthy h); reflexivity.
Qed.




(** One axis of the handler run twice. *)
Lemma reapply_axis_twice (sc W value : Qc) :
  0 < W -> value <> 0 ->
  let sc1 := sign sc * value / W in
  (0 < value -> sign sc1 * value / W = sc1)
  /\ (value < 0 -> sign sc1 * value / W = - sc1).
Proof.
  intros HW Hv sc1. subst sc1.
  assert (HWn : W <> 0) by (symmetry; by apply Qclt_not_eq).
  destruct (Qc_dec sc 0) as [[Hlt|Hgt]| ->].
  - rewrite (sign_neg sc Hlt).
    replace (- 1 * value / W) with (- (value / W)) by (unfold Qcdiv; ring).
    split; intros Hs.
    + rewrite sign_neg; [unfold Qcdiv; ring|].
      apply opp_neg_iff_pos. by apply div_pos.
    + rewrite sign_pos; [unfold Qcdiv; ring|].
      apply neg_iff_opp_pos. by apply div_neg_iff.
  - rewrite (sign_pos sc Hgt). rewrite Qcmult_1_l. split; intros Hs.
    + rewrite sign_pos; [by rewrite Qcmult_1_l|]. by apply div_pos.
    + rewrite sign_neg; [unfold Qcdiv; ring|]. by apply div_neg_iff.
  - change (sign 0) with 0.
    replace (0 * value / W) with 0 by (unfold Qcdiv; ring).
    change (sign 0) with 0. split; intros _; unfold Qcdiv; ring.
Qed.

(** X18: with remembered width and height at least 0 and a frame of
    positive size, a second [_onTextureUpdate] changes nothing. *)
Theorem onTextureUpdate_idempotent (s : Sprite.t) :
  0 ≤ _width s -> 0 ≤ _height s ->
  0 < Rectangle.width (Texture.orig (_texture s)) ->
  0 < Rectangle.height (Texture.orig (_texture s)) ->
  _onTextureUpdate (_onTextureUpdate s) = _onTextureUpdate s.
Proof.
  intros Hw Hh HW HH.
  rewrite (onTextureUpdate_state (_onTextureUpdate s)).
  rewrite (onTextureUpdate_state s). cbv zeta.
  destruct s as [an tex w h [sx sy] wt l td vd bd cb ch].
  cbn [_width _height scale _texture with_scale with_textureDirty
       Point.x Point.y] in *.
  unfold with_scale, with_textureDirty.
  cbn [anchor _texture _width _height scale worldTransform vertexData
       textureDirty vertexDirty _bounds _currentBounds children_length].
  f_equal. f_equal.
  - unfold truthy. case_bool_decide as Hz; [|reflexivity].
    apply reapply_axis_twice; [exact HW | exact Hz |].
    destruct (Qcle_lt_or_eq _ _ Hw) as [Hlt|Heq]; [exact Hlt|]. by subst.
  - unfold truthy. case_bool_decide as Hz; [|reflexivity].
    apply reapply_axis_twice; [exact HH | exact Hz |].
    destruct (Qcle_lt_or_eq _ _ Hh) as [Hlt|Heq]; [exact Hlt|]. by subst.
Qed.

Lemma onTextureUpdate_idempotent_witness :
  _onTextureUpdate (_onTextureUpdate resized) = _onTextureUpdate resized.
Proof.
  apply (onTextureUpdate_idempotent resized); compute_done.
Defined.

(** X19: with a negative remembered width and a frame of positive width,
    every [_onTextureUpdate] mirrors the sprite again: a second run stores
    the opposite of the scaleX that the first run stored; likewise for a
    negative remembered height. *)
Theorem onTextureUpdate_negative_size_flips (s : Sprite.t) :
  (_width s < 0 -> 0 < Rectangle.width (Texture.orig (_texture s)) ->
   Point.x (scale (_onTextureUpdate (_onTextureUpdate s)))
   = - Point.x (scale (_onTextureUpdate s)))
  /\ (_height s < 0 -> 0 < Rectangle.height (Texture.orig (_texture s)) ->
      Point.y (scale (_onTextureUpdate (_onTextureUpdate s)))
      = - Point.y (scale (_onTextureUpdate s))).
Proof.
  rewrite (onTextureUpdate_state (_onTextureUpdate s)).
  rewrite (onTextureUpdate_state s). cbv zeta.
  destruct s as [an tex w h [sx sy] wt l td vd bd cb ch].
  cbn [_width _height scale _texture with_scale with_textureDirty
       Point.x Point.y].
  split; intros Hneg Hpos;
    (assert (Hz : _ <> 0) by exact (Qclt_not_eq _ _ Hneg));
    unfold truthy; rewrite (bool_decide_eq_true_2 _ Hz);
    by apply reapply_axis_twice.
Qed.

Lemma onTextureUpdate_negative_size_flips_witness :
  Point.x (scale (_onTextureUpdate (_onTextureUpdate inverted)))
  = - Point.x (scale (_onTextureUpdate inverted))
  /\ Point.y (scale (_onTextureUpdate (_onTextureUpdate inverted)))
     = - Point.y (scale (_onTextureUpdate inverted)).
Proof.
  destruct (onTextureUpdate_negative_size_flips inverted) as [Hx Hy].
  split; [apply Hx | apply Hy]; compute_done.
Defined.

(** X20: at a scale of 0 the handler and the setter part ways: on a frame
    whose width is not 0, [_onTextureUpdate] leaves scaleX at 0 whatever
    width is remembered, where the width setter stores width / W for the
    same width; likewise for the height. *)
Theorem onTextureUpdate_keeps_zero_scale (s : Sprite.t) :
  (Point.x (scale s) = 0 ->
   Rectangle.width (Texture.orig (_texture s)) <> 0 ->
   Point.x (scale (_onTextureUpdate s)) = 0
   /\ Point.x (scale (set_width s (_width s)))
      = _width s / Rectangle.width (Texture.orig (_texture s)))
  /\ (Point.y (scale s) = 0 ->
      Rectangle.height (Texture.orig (_texture s)) <> 0 ->
      Point.y (scale (_onTextureUpdate s)) = 0
      /\ Point.y (scale (set_height s (_height s)))
         = _height s / Rectangle.height (Texture.orig (_texture s))).
Proof.
  rewrite (onTextureUpdate_state s). cbv zeta.
  unfold set_width, set_height.
  cbn [scale with_scale with__width with__height with_textureDirty
       Point.x Point.y].
  split; intros -> _; change (sign 0) with 0; change (js_or 0 1) with 1;
    (split; [destruct (truthy _); [unfold Qcdiv; ring|reflexivity]
            | by rewrite Qcmult_1_l]).
Qed.

Lemma onTextureUpdate_keeps_zero_scale_witness :
  (Point.x (scale (_onTextureUpdate collapsed)) = 0
   /\ Point.x (scale (set_width collapsed (_width collapsed)))
      = _width collapsed
        / Rectangle.width (Texture.orig (_texture collapsed)))
  /\ (Point.y (scale (_onTextureUpdate collapsed)) = 0
      /\ Point.y (scale (set_height collapsed (_height collapsed)))
         = _height collapsed
           / Rectangle.height (Texture.orig (_texture collapsed))).
Proof.
  destruct (onTextureUpdate_keeps_zero_scale collapsed) as [Hx Hy].
  split; [apply Hx | apply Hy]; compute_done.
Defined.

(** * Further properties of the rendering entry points *)

(** X21: [_renderWebGL] hands the renderer the sprite it leaves, with
    [textureDirty] cleared; a further call with an unchanged transform
    changes nothing in the sprite and hands over the same sprite. *)
Theorem renderWebGL_settles (updated : bool) (s : Sprite.t) :
  let s' := fst (_renderWebGL updated s) in
  textureDirty s' = false
  /\ snd (_renderWebGL updated s)
     = [setObjectRenderer_sprite; plugins_sprite_render s']
  /\ _renderWebGL false s'
     = (s', [setObjectRenderer_sprite; plugins_sprite_render s']).
Proof.
  intros s'.
  assert (Hclean : textureDirty s' = false).
  { subst s'. unfold _renderWebGL. cbn [fst].
    destruct (updated || textureDirty s) eqn:Hd.
    - destruct (calculateVertices_writes (with_textureDirty s false))
        as (l & -> & _). reflexivity.
    - by apply orb_false_elim in Hd as [_ ?]. }
  split; [exact Hclean|]. split; [reflexivity|].
  unfold _renderWebGL at 1. rewrite Hclean. reflexivity.
Qed.

(** X22: after [_onTextureUpdate] the next [_renderWebGL] recomputes the
    render quad even when the transform is unchanged; the buffer it leaves
    is the one [calculateVertices] computes from the frame, the trim, the
    anchor and the world transform in place, into which the scale that the
    handler stored does not enter. *)
Theorem renderWebGL_after_texture_update (updated : bool) (s : Sprite.t) :
  vertexData (fst (_renderWebGL updated (_onTextureUpdate s)))
  = vertexData (calculateVertices s)
  /\ textureDirty (fst (_renderWebGL updated (_onTextureUpdate s))) = false.
Proof.
  rewrite (onTextureUpdate_state s). cbv zeta.
  unfold _renderWebGL.
  cbn [textureDirty with_scale with_textureDirty fst].
  rewrite orb_true_r.
  destruct s as [an [orig [trim|]] w h sc wt l td vd bd cb ch];
    split; reflexivity.
Qed.


